(** * clog: a leveled, formatted logger (github.com/billowdev/clog)

    A shallow embedding of [clog.go].  The package keeps three global
    variables (the threshold and two annotation switches) and writes to
    standard output; both are carried in an explicit [World].  A Go
    [panic] leaves the bytes already written where they are, so a
    computation returns a [Result] together with the final world.

    What the package reads from outside itself is passed in:
    - the colour library ([color.New(...).Sprint]) is a parameter of
      the development;
    - the clock, [runtime.Caller] and [runtime.Stack] answer through a
      [Runtime] record, one per call of a public function.

    Go strings are byte strings, as [string] is here. *)

From Stdlib Require Import ZArith List String Ascii Bool Lia DecimalString.
Import ListNotations.
Local Open Scope string_scope.
Local Open Scope Z_scope.

(** ** Pieces of the Go standard library used by the package *)

Module GoStrings.

(** The six bytes of [asciiSpace] in package strings. *)
Definition isSpace (c : ascii) : bool :=
  let n := nat_of_ascii c in
  (Nat.eqb n 9 || Nat.eqb n 10 || Nat.eqb n 11 || Nat.eqb n 12
   || Nat.eqb n 13 || Nat.eqb n 32)%bool.

Definition isEmpty (s : string) : bool :=
  match s with EmptyString => true | String _ _ => false end.

(** [strings.Fields] on ASCII input: the maximal runs of non-space bytes.
    For input with a byte above 127 Go splits on [unicode.IsSpace]
    instead; that case is not modelled.  The dumps of the Go runtime
    are ASCII up to and beyond the identifier. *)
Fixpoint fieldsFrom (cur : string) (s : string) : list string :=
  match s with
  | EmptyString => if isEmpty cur then [] else [cur]
  | String c s' =>
      if isSpace c
      then (if isEmpty cur then fieldsFrom "" s' else cur :: fieldsFrom "" s')
      else fieldsFrom (cur ++ String c "") s'
  end.

Definition Fields (s : string) : list string := fieldsFrom "" s.

(** [strings.TrimPrefix]. *)
Definition TrimPrefix (s p : string) : string :=
  if String.prefix p s
  then substring (String.length p) (String.length s - String.length p) s
  else s.

(** [strings.Join]. *)
Definition Join (elems : list string) (sep : string) : string :=
  String.concat sep elems.

End GoStrings.

Module GoFilepath.

Definition isPathSeparator (c : ascii) : bool := Ascii.eqb c "/".

Fixpoint dropWhile (p : ascii -> bool) (l : list ascii) : list ascii :=
  match l with
  | [] => []
  | c :: l' => if p c then dropWhile p l' else l
  end.

Fixpoint takeWhile (p : ascii -> bool) (l : list ascii) : list ascii :=
  match l with
  | [] => []
  | c :: l' => if p c then c :: takeWhile p l' else []
  end.

(** [filepath.Base] with the Unix separator: trailing separators are
    stripped, then the last element is kept; an empty path gives ".",
    a path of separators only gives "/". *)
Definition Base (path : string) : string :=
  if GoStrings.isEmpty path then "."
  else
    let stripped := dropWhile isPathSeparator (rev (list_ascii_of_string path)) in
    let last := takeWhile (fun c => negb (isPathSeparator c)) stripped in
    match last with
    | [] => "/"
    | _ => string_of_list_ascii (rev last)
    end.

End GoFilepath.

Module GoFmt.

(** An [interface{}] operand.  A float64 is carried as the text its
    default format prints, since that text is all the package uses. *)
Inductive any : Type :=
| AInt (i : Z)
| AString (s : string)
| ABool (b : bool)
| AFloat64 (shown : string)
| ANil.

Definition itoa (i : Z) : string := NilZero.string_of_int (Z.to_int i).

Definition typeName (a : any) : string :=
  match a with
  | AInt _ => "int"
  | AString _ => "string"
  | ABool _ => "bool"
  | AFloat64 _ => "float64"
  | ANil => "<nil>"
  end.

(** The verb [%v]. *)
Definition fmtV (a : any) : string :=
  match a with
  | AInt i => itoa i
  | AString s => s
  | ABool true => "true"
  | ABool false => "false"
  | AFloat64 shown => shown
  | ANil => "<nil>"
  end.

Definition typedValue (a : any) : string :=
  match a with
  | ANil => "<nil>"
  | _ => typeName a ++ "=" ++ fmtV a
  end.

Definition badVerb (verb : ascii) (a : any) : string :=
  "%!" ++ String verb "(" ++ typedValue a ++ ")".

Definition printArg (a : any) (verb : ascii) : string :=
  if Ascii.eqb verb "v" then fmtV a
  else if Ascii.eqb verb "s" then
    match a with AString s => s | _ => badVerb verb a end
  else if Ascii.eqb verb "d" then
    match a with AInt i => itoa i | _ => badVerb verb a end
  else badVerb verb a.

Definition extraArgs (args : list any) : string :=
  match args with
  | [] => ""
  | _ => "%!(EXTRA " ++ String.concat ", " (map typedValue args) ++ ")"
  end.

(** [fmt.Sprintf] for formats built from literal text and the plain
    verbs [%s], [%d], [%v] and [%%], which are the ones this package
    writes itself.  Operands that do not fit a verb, missing operands
    and left-over operands print Go's [%!] markers.  Flags, widths,
    precisions and the other verbs are not modelled; no statement
    below depends on them. *)
Fixpoint doPrintf (format : string) (args : list any) : string :=
  match format with
  | EmptyString => extraArgs args
  | String c rest =>
      if Ascii.eqb c "%" then
        match rest with
        | EmptyString => "%!(NOVERB)" ++ extraArgs args
        | String verb rest' =>
            if Ascii.eqb verb "%" then String "%" (doPrintf rest' args)
            else
              match args with
              | [] => "%!" ++ String verb "(MISSING)" ++ doPrintf rest' []
              | a :: args' => printArg a verb ++ doPrintf rest' args'
              end
        end
      else String c (doPrintf rest args)
  end.

Definition Sprintf (format : string) (args : list any) : string :=
  doPrintf format args.

End GoFmt.

Import GoStrings GoFilepath GoFmt.

(** ** The Go runtime and the clock, as seen by one call *)

(** [now] is the text of [time.Now().UTC().Format("2006-01-02 15:04:05.000 UTC")];
    [caller] is what [runtime.Caller(3)] reports for the frame that called
    the public function ([None] when it reports [ok = false]);
    [stackDump] is the text [runtime.Stack] has for the current goroutine. *)
Record Runtime : Type := mkRuntime {
  now : string;
  caller : option (string * Z);
  stackDump : string
}.

(** [runtime.Stack(buf, false)] fills [buf] with as much of the dump as
    fits and returns the count; [string(buf[:n])] is that prefix. *)
Definition runtime_Stack (buflen : nat) (rt : Runtime) : string :=
  substring 0 buflen (stackDump rt).

(** ** Levels *)

Definition LogLevel : Type := Z.

(** The constant block numbers its members with [iota], from zero. *)
Definition PanicLevel : LogLevel := 0.
Definition ErrorLevel : LogLevel := 1.
Definition WarningLevel : LogLevel := 2.
Definition InfoLevel : LogLevel := 3.
Definition DebugLevel : LogLevel := 4.
Definition TraceLevel : LogLevel := 5.

(** ** Package state and the outside world *)

(** The three package variables, and the writes made to standard output,
    oldest first: one entry per call of [fmt.Println]. *)
Record World : Type := mkWorld {
  currentLogLevel : LogLevel;
  showFileLine : bool;
  showGoroutineID : bool;
  stdout : list string
}.

(** Package initialisation. *)
Definition initWorld : World :=
  mkWorld InfoLevel true true [].

(** What a [panic] carries: the operand of an explicit [panic(v)] with a
    string, or a run-time error. *)
Inductive PanicValue : Type :=
| PString (s : string)
| PRuntimeError (text : string).

Inductive Result (A : Type) : Type :=
| Return (a : A)
| Raise (v : PanicValue).
Arguments Return {A} a.
Arguments Raise {A} v.

Definition M (A : Type) : Type := World -> Result A * World.

Definition ret {A} (a : A) : M A := fun w => (Return a, w).

Definition bind {A B} (m : M A) (k : A -> M B) : M B :=
  fun w =>
    match m w with
    | (Return a, w') => k a w'
    | (Raise v, w') => (Raise v, w')
    end.

Definition panic {A} (v : PanicValue) : M A := fun w => (Raise v, w).

Definition gets {A} (f : World -> A) : M A := fun w => (Return (f w), w).

Definition modify (f : World -> World) : M unit := fun w => (Return tt, f w).

Declare Scope go_scope.
Delimit Scope go_scope with go.
Notation "x <- m ;; k" := (bind m (fun x => k))
  (at level 61, m at next level, right associativity) : go_scope.
Notation "m ;; k" := (bind m (fun _ => k))
  (at level 61, right associativity) : go_scope.
Local Open Scope go_scope.

Definition newline : string := String "010" EmptyString.

(** [fmt.Println] of one string: a single write of the string and a newline. *)
Definition Println (s : string) : M unit :=
  modify (fun w => mkWorld (currentLogLevel w) (showFileLine w) (showGoroutineID w)
                           (stdout w ++ [s ++ newline])).

(** Indexing a slice at 0. *)
Definition index0 (l : list string) : M string :=
  match l with
  | x :: _ => ret x
  | [] => panic (PRuntimeError "index out of range [0] with length 0")
  end.

(** ** The colour library *)

Inductive Attribute : Type :=
| Bold | FgRed | FgGreen | FgYellow | FgBlue | FgMagenta | FgCyan | FgWhite
| FgHiRed | FgHiBlue | FgHiMagenta.

Section Clog.

(** [color.New(attrs...).Sprint(text)]: the text, wrapped in whatever
    escape sequences the colour library decides on for this process. *)
Variable color_Sprint : list Attribute -> string -> string.

Definition infoPrefix : string := color_Sprint [FgCyan] "ℹ️  INFO     ".
Definition successPrefix : string := color_Sprint [FgGreen] "✅ SUCCESS  ".
Definition initPrefix : string := color_Sprint [FgBlue] "🚀 INIT     ".
Definition configPrefix : string := color_Sprint [FgMagenta] "⚙️  CONFIG   ".
Definition warningPrefix : string := color_Sprint [FgYellow] "⚠️  WARNING  ".
Definition errorPrefix : string := color_Sprint [FgRed] "❌ ERROR    ".
Definition debugPrefix : string := color_Sprint [FgWhite] "🔍 DEBUG    ".
Definition tracePrefix : string := color_Sprint [FgHiBlue] "📍 TRACE    ".
Definition panicPrefix : string := color_Sprint [FgHiRed; Bold] "💥 PANIC    ".
Definition metricPrefix : string := color_Sprint [FgHiMagenta] "📊 METRIC   ".

(** *** Configuration *)

Definition SetLogLevel (level : LogLevel) : M unit :=
  modify (fun w => mkWorld level (showFileLine w) (showGoroutineID w) (stdout w)).

Definition SetShowFileLine (show : bool) : M unit :=
  modify (fun w => mkWorld (currentLogLevel w) show (showGoroutineID w) (stdout w)).

Definition SetShowGoroutineID (show : bool) : M unit :=
  modify (fun w => mkWorld (currentLogLevel w) (showFileLine w) show (stdout w)).

(** *** Annotations *)

Definition getFileInfo (rt : Runtime) : M string :=
  show <- gets showFileLine ;;
  if negb show then ret ""
  else
    match caller rt with
    | None => ret ""
    | Some (file, line) => ret (Sprintf "%s:%d" [AString (Base file); AInt line])
    end.

Definition getGoroutineID (rt : Runtime) : M string :=
  show <- gets showGoroutineID ;;
  if negb show then ret ""
  else
    let buf := runtime_Stack 64 rt in
    id <- index0 (Fields (TrimPrefix buf "goroutine ")) ;;
    ret (Sprintf "(goroutine %s)" [AString id]).

(** *** The one emit routine *)

Definition logWithTimestamp (rt : Runtime) (prefix msg : string) (level : LogLevel) : M unit :=
  cur <- gets currentLogLevel ;;
  if level >? cur then ret tt
  else
    let timestamp := now rt in
    fileInfo <- getFileInfo rt ;;
    goroutineInfo <- getGoroutineID rt ;;
    let logMsg := Sprintf "%s [%s]" [AString prefix; AString timestamp] in
    let logMsg :=
      if negb (fileInfo =? "")%string
      then logMsg ++ Sprintf " [%s]" [AString fileInfo] else logMsg in
    let logMsg :=
      if negb (goroutineInfo =? "")%string
      then logMsg ++ Sprintf " %s" [AString goroutineInfo] else logMsg in
    let logMsg := logMsg ++ Sprintf " %s" [AString msg] in
    Println logMsg.

(** *** Channels *)

Definition Info (rt : Runtime) (format : string) (args : list any) : M unit :=
  logWithTimestamp rt infoPrefix (Sprintf format args) InfoLevel.

Definition Success (rt : Runtime) (format : string) (args : list any) : M unit :=
  logWithTimestamp rt successPrefix (Sprintf format args) InfoLevel.

Definition Init (rt : Runtime) (format : string) (args : list any) : M unit :=
  logWithTimestamp rt initPrefix (Sprintf format args) InfoLevel.

Definition Config (rt : Runtime) (format : string) (args : list any) : M unit :=
  logWithTimestamp rt configPrefix (Sprintf format args) InfoLevel.

Definition Warning (rt : Runtime) (format : string) (args : list any) : M unit :=
  logWithTimestamp rt warningPrefix (Sprintf format args) WarningLevel.

Definition Error (rt : Runtime) (format : string) (args : list any) : M unit :=
  logWithTimestamp rt errorPrefix (Sprintf format args) ErrorLevel.

Definition Debug (rt : Runtime) (format : string) (args : list any) : M unit :=
  logWithTimestamp rt debugPrefix (Sprintf format args) DebugLevel.

Definition Trace (rt : Runtime) (format : string) (args : list any) : M unit :=
  logWithTimestamp rt tracePrefix (Sprintf format args) TraceLevel.

Definition Panic (rt : Runtime) (format : string) (args : list any) : M unit :=
  let msg := Sprintf format args in
  logWithTimestamp rt panicPrefix msg PanicLevel ;;
  panic (PString msg).

Definition Metric (rt : Runtime) (name : string) (value : any) (tags : list string) : M unit :=
  let tagStr :=
    if (0 <? List.length tags)%nat
    then Sprintf " [%s]" [AString (Join tags ", ")] else "" in
  logWithTimestamp rt metricPrefix
    (Sprintf "%s: %v%s" [AString name; value; AString tagStr]) InfoLevel.

(** *** One value per call of a public emission function *)

Inductive Call : Type :=
| CallInfo (format : string) (args : list any)
| CallSuccess (format : string) (args : list any)
| CallInit (format : string) (args : list any)
| CallConfig (format : string) (args : list any)
| CallWarning (format : string) (args : list any)
| CallError (format : string) (args : list any)
| CallDebug (format : string) (args : list any)
| CallTrace (format : string) (args : list any)
| CallPanic (format : string) (args : list any)
| CallMetric (name : string) (value : any) (tags : list string).

Definition call (rt : Runtime) (c : Call) : M unit :=
  match c with
  | CallInfo format args => Info rt format args
  | CallSuccess format args => Success rt format args
  | CallInit format args => Init rt format args
  | CallConfig format args => Config rt format args
  | CallWarning format args => Warning rt format args
  | CallError format args => Error rt format args
  | CallDebug format args => Debug rt format args
  | CallTrace format args => Trace rt format args
  | CallPanic format args => Panic rt format args
  | CallMetric name value tags => Metric rt name value tags
  end.

Definition isFatal (c : Call) : bool :=
  match c with CallPanic _ _ => true | _ => false end.

(** The prefix variable each public function hands to the emit routine. *)
Definition prefixOf (c : Call) : string :=
  match c with
  | CallInfo _ _ => infoPrefix
  | CallSuccess _ _ => successPrefix
  | CallInit _ _ => initPrefix
  | CallConfig _ _ => configPrefix
  | CallWarning _ _ => warningPrefix
  | CallError _ _ => errorPrefix
  | CallDebug _ _ => debugPrefix
  | CallTrace _ _ => tracePrefix
  | CallPanic _ _ => panicPrefix
  | CallMetric _ _ _ => metricPrefix
  end.

End Clog.

(** ** The specification's side *)

(** The severity each channel is bound to, as the specification lists
    them: Info, Success, Init, Config and Metric at Info, the others at
    the level of their own name. *)
Definition boundSeverity (c : Call) : LogLevel :=
  match c with
  | CallInfo _ _ | CallSuccess _ _ | CallInit _ _ | CallConfig _ _ => InfoLevel
  | CallMetric _ _ _ => InfoLevel
  | CallWarning _ _ => WarningLevel
  | CallError _ _ => ErrorLevel
  | CallDebug _ _ => DebugLevel
  | CallTrace _ _ => TraceLevel
  | CallPanic _ _ => PanicLevel
  end.

(** The body of a metric line: [<name>: <value>], then the tags in
    brackets when there are any. *)
Definition metricBody (name : string) (value : any) (tags : list string) : string :=
  name ++ ": " ++ fmtV value ++
  match tags with
  | [] => ""
  | _ => " [" ++ String.concat ", " tags ++ "]"
  end.

(** The message body of a call: the interpolated template, or the
    metric body. *)
Definition messageOf (c : Call) : string :=
  match c with
  | CallInfo format args | CallSuccess format args | CallInit format args
  | CallConfig format args | CallWarning format args | CallError format args
  | CallDebug format args | CallTrace format args | CallPanic format args =>
      Sprintf format args
  | CallMetric name value tags => metricBody name value tags
  end.

(** [<prefix> [<timestamp>] [<file:line>]? (<context-id>)? <message>] *)
Definition assembleLine (prefix timestamp : string) (fileLine contextID : option string)
           (msg : string) : string :=
  prefix ++ " [" ++ timestamp ++ "]"
  ++ match fileLine with Some fl => " [" ++ fl ++ "]" | None => "" end
  ++ match contextID with Some id => " (" ++ id ++ ")" | None => "" end
  ++ " " ++ msg.

(** The source location, when the annotation is on and the runtime
    knows the caller: base name of the file, a colon, the line. *)
Definition resolvedFileLine (w : World) (rt : Runtime) : option string :=
  if showFileLine w then
    match caller rt with
    | Some (file, line) => Some (Base file ++ ":" ++ itoa line)
    | None => None
    end
  else None.

(** The first field of the goroutine dump after its "goroutine " header word. *)
Definition goroutineToken (rt : Runtime) : option string :=
  hd_error (Fields (TrimPrefix (runtime_Stack 64 rt) "goroutine ")).

Definition resolvedContextID (w : World) (rt : Runtime) : option string :=
  if showGoroutineID w
  then option_map (fun id => "goroutine " ++ id) (goroutineToken rt)
  else None.

(** The package takes for granted that the dump names the goroutine;
    this says that it does, wherever the annotation is on. *)
Definition contextResolves (w : World) (rt : Runtime) : bool :=
  negb (showGoroutineID w)
  || match goroutineToken rt with Some _ => true | None => false end.

(** The world after one more write to standard output. *)
Definition wrote (w : World) (s : string) : World :=
  mkWorld (currentLogLevel w) (showFileLine w) (showGoroutineID w) (stdout w ++ [s]).

(** A computation emits a line: standard output grows by exactly one
    newline-terminated write. *)
Definition emitsLine {A} (m : M A) (w : World) : Prop :=
  exists line : string,
    stdout (snd (m w)) = (stdout w ++ [(line ++ newline)%string])%list.

(** The members of the level enumeration, in declaration order. *)
Definition LogLevels : list LogLevel :=
  [PanicLevel; ErrorLevel; WarningLevel; InfoLevel; DebugLevel; TraceLevel].

(** The colour library with colours switched off. *)
Definition plain_Sprint (_ : list Attribute) (text : string) : string := text.

(** ** Programs over the package *)

(** A caller's straight-line program: public calls one after the
    other, each with the runtime answers it sees. *)
Fixpoint runCalls (cs : list Attribute -> string -> string)
         (prog : list (Runtime * Call)) : M unit :=
  match prog with
  | [] => ret tt
  | (rt, c) :: prog' => call cs rt c ;; runCalls cs prog'
  end.

(** [performDatabaseOperation] of the sample program: it always returns
    [errors.New("connection timeout")].  An error is [None] for nil and
    otherwise the text of its [Error] method. *)
Definition performDatabaseOperation : option string := Some "connection timeout".

(** [main] of sample/main.go; [rt i] is what the i-th emission call of
    the program text sees.  Under [%v] a [time.Duration] and an error
    print the text of their [String] and [Error] methods, so
    [30*time.Second] and [err] are passed as those texts. *)
Definition main (cs : list Attribute -> string -> string) (rt : nat -> Runtime) : M unit :=
  SetLogLevel DebugLevel ;;
  SetShowFileLine true ;;
  SetShowGoroutineID true ;;
  Init cs (rt 0%nat) "Starting application..." [] ;;
  Config cs (rt 1%nat) "Loading configuration from config.yaml" [] ;;
  Info cs (rt 2%nat) "Application initialized successfully" [] ;;
  Success cs (rt 3%nat) "Server started on port %d" [AInt 8080] ;;
  Debug cs (rt 4%nat) "Connected to database with timeout: %v" [AString "30s"] ;;
  Trace cs (rt 5%nat) "Establishing connection pool with size: %d" [AInt 10] ;;
  Metric cs (rt 6%nat) "active_connections" (AInt 42) ["db=postgres"; "host=primary"] ;;
  Metric cs (rt 7%nat) "request_latency_ms" (AFloat64 "156.3") ["endpoint=/api/users"] ;;
  Warning cs (rt 8%nat) "High memory usage detected: %d%%" [AInt 85] ;;
  match performDatabaseOperation with
  | Some err => Error cs (rt 9%nat) "Database operation failed: %v" [AString err]
  | None => ret tt
  end ;;
  Debug cs (rt 10%nat) "Processing new user registration..." [] ;;
  Info cs (rt 11%nat) "New user registered: %s" [AString "john.doe@example.com"] ;;
  Success cs (rt 12%nat) "Welcome email sent successfully" [] ;;
  Metric cs (rt 13%nat) "user_registrations" (AInt 1) ["source=web"] ;;
  Metric cs (rt 14%nat) "email_delivery_time_ms" (AFloat64 "245.8") [].

(** ** Vocabulary for the further properties *)

(** The call's severity passes the threshold of [w]. *)
Definition permitted (w : World) (c : Call) : bool :=
  boundSeverity c <=? currentLogLevel w.

(** The line a permitted call writes in a world configured as [w]. *)
Definition renderCall (cs : list Attribute -> string -> string) (w : World)
           (rc : Runtime * Call) : string :=
  assembleLine (prefixOf cs (snd rc)) (now (fst rc)) (resolvedFileLine w (fst rc))
               (resolvedContextID w (fst rc)) (messageOf (snd rc)) ++ newline.

(** What a straight-line program needs of each step to run through:
    no Panic, and a goroutine dump that names the goroutine. *)
Definition stepRuns (w : World) (rc : Runtime * Call) : bool :=
  negb (isFatal (snd rc)) && contextResolves w (fst rc).

Fixpoint spaceFree (s : string) : bool :=
  match s with
  | EmptyString => true
  | String c s' => negb (isSpace c) && spaceFree s'
  end.

Fixpoint separatorFree (s : string) : bool :=
  match s with
  | EmptyString => true
  | String c s' => negb (isPathSeparator c) && separatorFree s'
  end.

Fixpoint percentFree (s : string) : bool :=
  match s with
  | EmptyString => true
  | String c s' => negb (Ascii.eqb c "%") && percentFree s'
  end.

Fixpoint endsWithNewline (s : string) : bool :=
  match s with
  | EmptyString => false
  | String c EmptyString => Ascii.eqb c "010"
  | String _ s' => endsWithNewline s'
  end.

(** The dump has a first field after the header word. *)
Definition namesGoroutine (rt : Runtime) : bool :=
  match goroutineToken rt with Some _ => true | None => false end.

(** The number of newline bytes in a string: the number of lines a
    terminal shows for a write that ends in a newline. *)
Fixpoint newlineCount (s : string) : nat :=
  match s with
  | EmptyString => 0%nat
  | String c s' => ((if Ascii.eqb c "010" then 1 else 0) + newlineCount s')%nat
  end.

(** Two worlds with the same three package variables. *)
Definition sameConfig (w w' : World) : Prop :=
  currentLogLevel w' = currentLogLevel w
  /\ showFileLine w' = showFileLine w
  /\ showGoroutineID w' = showGoroutineID w.

(** The runtime answers of a goroutine whose dump starts
    [goroutine <id> <rest>]. *)
Definition headerRuntime (now0 : string) (caller0 : option (string * Z))
           (id rest : string) : Runtime :=
  mkRuntime now0 caller0 ("goroutine " ++ id ++ rest).

(** Sample inputs. *)
(** A template of two lines: "a", a newline, "b". *)
Definition twoLineTemplate : string := "a" ++ newline ++ "b".

Definition sampleRuntime : Runtime :=
  mkRuntime "2024-12-11 15:04:05.123 UTC" (Some ("/srv/app/main.go", 25))
            ("goroutine 1 [running]:" ++ newline ++ "main.main()").

Definition blankDumpRuntime : Runtime :=
  mkRuntime "2024-12-11 15:04:05.123 UTC" (Some ("/srv/app/main.go", 25)) "".


Definition sampleWorld : World := mkWorld WarningLevel true true [].

Definition strictWorld : World := mkWorld PanicLevel true true [].

Definition bareWorld : World := mkWorld InfoLevel false false [].

Definition sampleCall : Call := CallError "y=%d" [AInt 5].

(** ** Lemmas on the library functions *)

Example Sprintf_ex1 : Sprintf "y=%d" [AInt 5] = "y=5".
Proof. reflexivity. Qed.

Example Fields_ex : Fields "  12 [running]: x  " = ["12"; "[running]:"; "x"].
Proof. reflexivity. Qed.

Example Base_ex : (Base "/a/b/main.go", Base "main.go", Base "/a/b//", Base "///", Base "")
                  = ("main.go", "main.go", "b", "/", ".").
Proof. reflexivity. Qed.

(** The scenarios of the specification: at threshold Warning, Info
    writes nothing and Error writes its line; Metric at the default
    threshold writes its name, value and tag. *)
Example Info_below_threshold :
  Info plain_Sprint sampleRuntime "x" [] sampleWorld = (Return tt, sampleWorld).
Proof. reflexivity. Qed.

Example Error_above_threshold :
  Error plain_Sprint sampleRuntime "y=%d" [AInt 5] sampleWorld
  = (Return tt,
     wrote sampleWorld
       ("❌ ERROR     [2024-12-11 15:04:05.123 UTC] [main.go:25] (goroutine 1) y=5"
        ++ newline)).
Proof. reflexivity. Qed.

Example Metric_without_tags :
  Metric plain_Sprint sampleRuntime "email_delivery_time_ms" (AFloat64 "245.8") []
         bareWorld
  = (Return tt,
     wrote bareWorld
       ("📊 METRIC    [2024-12-11 15:04:05.123 UTC] email_delivery_time_ms: 245.8"
        ++ newline)).
Proof. reflexivity. Qed.


Lemma append_empty_r (s : string) : s ++ "" = s.
Proof. induction s as [|c s IH]; simpl; [reflexivity | now rewrite IH]. Qed.

Lemma append_assoc (a b c : string) : (a ++ b) ++ c = a ++ (b ++ c).
Proof. induction a as [|x a IH]; simpl; [reflexivity | now rewrite IH]. Qed.

Lemma append_nonempty_r (a : string) (c : ascii) (b : string) :
  (a ++ String c b =? "")%string = false.
Proof. destruct a; reflexivity. Qed.

Lemma Sprintf_prefix_timestamp (prefix timestamp : string) :
  Sprintf "%s [%s]" [AString prefix; AString timestamp]
  = prefix ++ " [" ++ timestamp ++ "]".
Proof. reflexivity. Qed.

Lemma Sprintf_bracket (s : string) : Sprintf " [%s]" [AString s] = " [" ++ s ++ "]".
Proof. reflexivity. Qed.

Lemma Sprintf_space (s : string) : Sprintf " %s" [AString s] = " " ++ s.
Proof. cbn. now rewrite append_empty_r. Qed.

Lemma Sprintf_file_line (file : string) (line : Z) :
  Sprintf "%s:%d" [AString file; AInt line] = file ++ ":" ++ itoa line.
Proof. cbn. now rewrite append_empty_r. Qed.

Lemma Sprintf_goroutine (id : string) :
  Sprintf "(goroutine %s)" [AString id] = "(goroutine " ++ id ++ ")".
Proof. reflexivity. Qed.

Lemma Sprintf_metric (name : string) (value : any) (tagStr : string) :
  Sprintf "%s: %v%s" [AString name; value; AString tagStr]
  = name ++ ": " ++ fmtV value ++ tagStr.
Proof. cbn. now rewrite append_empty_r. Qed.

Arguments Sprintf : simpl never.

Lemma fieldsFrom_nonempty (cur s : string) :
  isEmpty cur = false -> fieldsFrom cur s <> [].
Proof.
  revert cur; induction s as [|c s IH]; intros cur Hcur; simpl.
  - rewrite Hcur; discriminate.
  - destruct (isSpace c).
    + rewrite Hcur; discriminate.
    + apply IH. destruct cur; reflexivity.
Qed.

(** A dump that starts the way the Go runtime writes it, with the word
    "goroutine", a space and then a byte that is not white space, always
    names the goroutine. *)
Lemma header_resolves (now0 : string) (caller0 : option (string * Z))
      (c : ascii) (rest : string) :
  isSpace c = false ->
  goroutineToken (mkRuntime now0 caller0 ("goroutine " ++ String c rest)) <> None.
Proof.
  intros Hc. unfold goroutineToken, runtime_Stack, TrimPrefix; cbn.
  rewrite Hc.
  destruct (fieldsFrom _ _) eqn:E; [|discriminate].
  exfalso; revert E; apply fieldsFrom_nonempty; reflexivity.
Qed.

Lemma header_contextResolves (now0 : string) (caller0 : option (string * Z))
      (c : ascii) (rest : string) (w : World) :
  isSpace c = false ->
  contextResolves w (mkRuntime now0 caller0 ("goroutine " ++ String c rest)) = true.
Proof.
  intros Hc. unfold contextResolves.
  pose proof (header_resolves now0 caller0 c rest Hc) as H.
  destruct (goroutineToken _); [apply Bool.orb_true_r | contradiction].
Qed.

(** ** Lemmas on the annotations and the emit routine *)

Lemma getFileInfo_run (rt : Runtime) (w : World) :
  getFileInfo rt w
  = (Return (match resolvedFileLine w rt with Some fl => fl | None => "" end), w).
Proof.
  unfold getFileInfo, resolvedFileLine, bind, gets, ret.
  destruct (showFileLine w); simpl; [|reflexivity].
  destruct (caller rt) as [[file line]|]; [|reflexivity].
  now rewrite Sprintf_file_line.
Qed.

Lemma getGoroutineID_off (rt : Runtime) (w : World) :
  showGoroutineID w = false -> getGoroutineID rt w = (Return "", w).
Proof. intros H; unfold getGoroutineID, bind, gets; now rewrite H. Qed.

Lemma getGoroutineID_on (rt : Runtime) (w : World) (id : string) :
  showGoroutineID w = true -> goroutineToken rt = Some id ->
  getGoroutineID rt w = (Return ("(goroutine " ++ id ++ ")"), w).
Proof.
  intros H Hid; unfold getGoroutineID, bind, gets; rewrite H; simpl.
  unfold goroutineToken in Hid.
  destruct (Fields _) as [|x l]; simpl in Hid; [discriminate|].
  now injection Hid as ->.
Qed.

Lemma getGoroutineID_fails (rt : Runtime) (w : World) :
  showGoroutineID w = true -> goroutineToken rt = None ->
  getGoroutineID rt w
  = (Raise (PRuntimeError "index out of range [0] with length 0"), w).
Proof.
  intros H Hid; unfold getGoroutineID, bind, gets; rewrite H; simpl.
  unfold goroutineToken in Hid.
  destruct (Fields _) as [|x l]; simpl in Hid; [reflexivity|discriminate].
Qed.

Lemma logWithTimestamp_skip (rt : Runtime) (prefix msg : string) (level : LogLevel)
      (w : World) :
  level > currentLogLevel w ->
  logWithTimestamp rt prefix msg level w = (Return tt, w).
Proof.
  intros H; unfold logWithTimestamp, bind, gets.
  replace (level >? currentLogLevel w) with true; [reflexivity|].
  symmetry; apply Z.gtb_lt; lia.
Qed.

Lemma resolvedFileLine_nonempty (w : World) (rt : Runtime) (fl : string) :
  resolvedFileLine w rt = Some fl -> (fl =? "")%string = false.
Proof.
  unfold resolvedFileLine.
  destruct (showFileLine w); [|discriminate].
  destruct (caller rt) as [[file line]|]; [|discriminate].
  intros [= <-]. apply append_nonempty_r.
Qed.

Ltac normalize_appends :=
  repeat rewrite append_assoc; cbn [append]; try reflexivity.

Lemma logWithTimestamp_emit (rt : Runtime) (prefix msg : string) (level : LogLevel)
      (w : World) :
  level <= currentLogLevel w -> contextResolves w rt = true ->
  logWithTimestamp rt prefix msg level w
  = (Return tt,
     wrote w (assembleLine prefix (now rt) (resolvedFileLine w rt)
                           (resolvedContextID w rt) msg ++ newline)).
Proof.
  intros Hle Hctx; unfold logWithTimestamp, bind at 1, gets.
  replace (level >? currentLogLevel w) with false
    by (symmetry; rewrite Z.gtb_ltb; apply Z.ltb_ge; lia).
  unfold bind at 1; rewrite getFileInfo_run.
  unfold bind, resolvedContextID, contextResolves in *.
  rewrite Sprintf_prefix_timestamp, Sprintf_space.
  assert (Hfile : forall fl, resolvedFileLine w rt = Some fl -> (fl =? "")%string = false)
    by apply resolvedFileLine_nonempty.
  destruct (showGoroutineID w) eqn:Hg.
  - destruct (goroutineToken rt) as [id|] eqn:Hid; [|discriminate].
    rewrite (getGoroutineID_on rt w id Hg Hid); simpl option_map.
    unfold Println, modify, wrote, assembleLine.
    change (("(goroutine " ++ id ++ ")" =? "")%string) with false.
    rewrite Sprintf_space.
    destruct (resolvedFileLine w rt) as [fl|].
    + rewrite (Hfile fl eq_refl), Sprintf_bracket; simpl negb; cbv iota.
      do 2 f_equal. f_equal. normalize_appends.
    + simpl negb; cbv iota. do 2 f_equal. f_equal. normalize_appends.
  - rewrite (getGoroutineID_off rt w Hg).
    unfold Println, modify, wrote, assembleLine.
    destruct (resolvedFileLine w rt) as [fl|].
    + rewrite (Hfile fl eq_refl), Sprintf_bracket; simpl negb; cbv iota.
      do 2 f_equal. f_equal. normalize_appends.
    + simpl negb; cbv iota. do 2 f_equal. f_equal. normalize_appends.
Qed.

Lemma logWithTimestamp_fails (rt : Runtime) (prefix msg : string) (level : LogLevel)
      (w : World) :
  level <= currentLogLevel w ->
  showGoroutineID w = true -> goroutineToken rt = None ->
  logWithTimestamp rt prefix msg level w
  = (Raise (PRuntimeError "index out of range [0] with length 0"), w).
Proof.
  intros Hle Hg Hid; unfold logWithTimestamp, bind at 1, gets.
  replace (level >? currentLogLevel w) with false
    by (symmetry; rewrite Z.gtb_ltb; apply Z.ltb_ge; lia).
  unfold bind at 1; rewrite getFileInfo_run.
  unfold bind at 1; now rewrite (getGoroutineID_fails rt w Hg Hid).
Qed.

Lemma stdout_unchanged_no_line (l : list string) (x : string) : l <> (l ++ [x])%list.
Proof.
  intros H; apply (f_equal (@List.length string)) in H.
  rewrite List.length_app in H; simpl in H; lia.
Qed.

(** The emit routine writes a line exactly when the level passes the
    threshold and the goroutine lookup does not fail; the prefix and
    the message play no part in that. *)
Lemma logWithTimestamp_emits_iff (rt : Runtime) (prefix msg : string) (level : LogLevel)
      (w : World) :
  emitsLine (logWithTimestamp rt prefix msg level) w
  <-> level <= currentLogLevel w /\ contextResolves w rt = true.
Proof.
  split.
  - intros [line Hline].
    destruct (Z_le_gt_dec level (currentLogLevel w)) as [Hle|Hgt].
    + split; [exact Hle|].
      destruct (contextResolves w rt) eqn:Hctx; [reflexivity|exfalso].
      unfold contextResolves in Hctx.
      destruct (showGoroutineID w) eqn:Hg; [|discriminate].
      destruct (goroutineToken rt) eqn:Hid; [discriminate|].
      rewrite (logWithTimestamp_fails rt prefix msg level w Hle Hg Hid) in Hline.
      exact (stdout_unchanged_no_line _ _ Hline).
    + exfalso. rewrite (logWithTimestamp_skip rt prefix msg level w Hgt) in Hline.
      exact (stdout_unchanged_no_line _ _ Hline).
  - intros [Hle Hctx]. unfold emitsLine.
    rewrite (logWithTimestamp_emit rt prefix msg level w Hle Hctx).
    eexists; reflexivity.
Qed.

Lemma metric_message (name : string) (value : any) (tags : list string) :
  Sprintf "%s: %v%s"
    [AString name; value;
     AString (if (0 <? List.length tags)%nat
              then Sprintf " [%s]" [AString (Join tags ", ")] else "")]
  = metricBody name value tags.
Proof.
  rewrite Sprintf_metric; unfold metricBody.
  destruct tags as [|t tags]; [reflexivity|].
  now rewrite Sprintf_bracket.
Qed.

(** Every public emission function is the emit routine at the channel's
    prefix, message and bound severity, followed for [Panic] by the
    panic itself. *)
Lemma call_run (cs : list Attribute -> string -> string) (rt : Runtime) (c : Call)
      (w : World) :
  call cs rt c w
  = match logWithTimestamp rt (prefixOf cs c) (messageOf c) (boundSeverity c) w with
    | (Return _, w') =>
        if isFatal c then (Raise (PString (messageOf c)), w') else (Return tt, w')
    | (Raise v, w') => (Raise v, w')
    end.
Proof.
  destruct c; simpl;
    try (unfold Info, Success, Init, Config, Warning, Error, Debug, Trace;
         match goal with
         | |- ?m = _ => destruct m as [[[]|v] w']; reflexivity
         end).
  - unfold Panic, bind, panic.
    destruct (logWithTimestamp _ _ _ _ _) as [[[]|v] w']; reflexivity.
  - unfold Metric. rewrite metric_message.
    destruct (logWithTimestamp _ _ _ _ _) as [[[]|v] w']; reflexivity.
Qed.

(** ** Threshold filtering *)

Lemma newlineCount_app (a b : string) :
  newlineCount (a ++ b) = (newlineCount a + newlineCount b)%nat.
Proof. induction a as [|c a IH]; simpl; [reflexivity | rewrite IH; lia]. Qed.

Lemma newlineCount_terminated (line : string) :
  newlineCount (line ++ newline) = S (newlineCount line).
Proof. rewrite newlineCount_app. simpl. lia. Qed.

(** C1, as amended.  A call of any channel other than Panic, with the
    severity the specification binds it to, makes exactly one write
    when that severity is at most the threshold: the assembled record
    followed by one newline.  The write holds one more newline than the
    record does, so it is exactly one line when the record holds no
    newline.  When the severity is greater than the threshold the world
    is left untouched.  The goroutine dump is assumed to name the
    goroutine wherever that annotation is on. *)
Theorem non_fatal_threshold_filter
        (cs : list Attribute -> string -> string) (rt : Runtime) (c : Call) (w : World) :
  isFatal c = false ->
  contextResolves w rt = true ->
  let record := assembleLine (prefixOf cs c) (now rt) (resolvedFileLine w rt)
                             (resolvedContextID w rt) (messageOf c) in
  (boundSeverity c <= currentLogLevel w ->
   call cs rt c w = (Return tt, wrote w (record ++ newline))
   /\ newlineCount (record ++ newline) = S (newlineCount record)
   /\ (newlineCount record = 0%nat -> newlineCount (record ++ newline) = 1%nat))
  /\ (boundSeverity c > currentLogLevel w -> call cs rt c w = (Return tt, w)).
Proof.
  intros Hfatal Hctx record; rewrite call_run, Hfatal; split; intros Hlevel.
  - rewrite (logWithTimestamp_emit _ _ _ _ _ Hlevel Hctx).
    split; [reflexivity|]. rewrite newlineCount_terminated.
    split; [reflexivity | intros ->; reflexivity].
  - now rewrite (logWithTimestamp_skip _ _ _ _ _ Hlevel).
Qed.

Lemma non_fatal_threshold_filter_witness :
  isFatal sampleCall = false
  /\ contextResolves sampleWorld sampleRuntime = true
  /\ call plain_Sprint sampleRuntime sampleCall sampleWorld
     = (Return tt,
        wrote sampleWorld
          ("❌ ERROR     [2024-12-11 15:04:05.123 UTC] [main.go:25] (goroutine 1) y=5"
           ++ newline))
  /\ newlineCount
       ("❌ ERROR     [2024-12-11 15:04:05.123 UTC] [main.go:25] (goroutine 1) y=5"
        ++ newline) = 1%nat.
Proof.
  split; [reflexivity|]. split; [reflexivity|].
  destruct (proj1 (non_fatal_threshold_filter plain_Sprint sampleRuntime sampleCall
                     sampleWorld eq_refl eq_refl)) as [Hrun [_ Hone]].
  - simpl; unfold ErrorLevel, WarningLevel; lia.
  - split; [exact Hrun | apply Hone; reflexivity].
Defined.

(** C1, as stated, fails: the message is printed as it is, so with a
    newline inside the message one call of Info writes two lines. *)
Lemma info_newline_message_writes_two_lines :
  isFatal (CallInfo twoLineTemplate []) = false
  /\ contextResolves initWorld sampleRuntime = true
  /\ boundSeverity (CallInfo twoLineTemplate []) <= currentLogLevel initWorld
  /\ call plain_Sprint sampleRuntime (CallInfo twoLineTemplate []) initWorld
     = (Return tt,
        wrote initWorld
          ("ℹ️  INFO      [2024-12-11 15:04:05.123 UTC] [main.go:25] (goroutine 1) a"
           ++ newline ++ "b" ++ newline))
  /\ newlineCount
       ("ℹ️  INFO      [2024-12-11 15:04:05.123 UTC] [main.go:25] (goroutine 1) a"
        ++ newline ++ "b" ++ newline) = 2%nat.
Proof.
  split; [reflexivity|]. split; [reflexivity|].
  split; [unfold initWorld; simpl; unfold InfoLevel; lia|].
  split; reflexivity.
Qed.

(** C2, as amended.  Under every threshold that is a member of the
    level enumeration, Panic makes exactly one write, the assembled
    record followed by one newline, and then panics.  The write holds
    one more newline than the record does, so it is exactly one line
    when the record holds no newline.  The goroutine dump is assumed to
    name the goroutine wherever that annotation is on. *)
Theorem panic_emits_under_every_enum_threshold
        (cs : list Attribute -> string -> string) (rt : Runtime)
        (format : string) (args : list any) (w : World) :
  In (currentLogLevel w) LogLevels ->
  contextResolves w rt = true ->
  let record := assembleLine (panicPrefix cs) (now rt) (resolvedFileLine w rt)
                             (resolvedContextID w rt) (Sprintf format args) in
  Panic cs rt format args w
  = (Raise (PString (Sprintf format args)), wrote w (record ++ newline))
  /\ newlineCount (record ++ newline) = S (newlineCount record)
  /\ (newlineCount record = 0%nat -> newlineCount (record ++ newline) = 1%nat).
Proof.
  intros Hin Hctx record.
  assert (Hle : PanicLevel <= currentLogLevel w).
  { unfold LogLevels, PanicLevel, ErrorLevel, WarningLevel, InfoLevel, DebugLevel,
      TraceLevel in *; simpl in Hin; lia. }
  unfold Panic, bind, panic.
  rewrite (logWithTimestamp_emit _ _ _ _ _ Hle Hctx).
  split; [reflexivity|]. rewrite newlineCount_terminated.
  split; [reflexivity | intros ->; reflexivity].
Qed.

Lemma panic_emits_under_every_enum_threshold_witness :
  In (currentLogLevel strictWorld) LogLevels
  /\ contextResolves strictWorld sampleRuntime = true
  /\ Panic plain_Sprint sampleRuntime "unexpected state: %v" [AInt 7] strictWorld
     = (Raise (PString "unexpected state: 7"),
        wrote strictWorld
          ("💥 PANIC     [2024-12-11 15:04:05.123 UTC] [main.go:25] (goroutine 1) "
           ++ "unexpected state: 7" ++ newline))
  /\ newlineCount
       ("💥 PANIC     [2024-12-11 15:04:05.123 UTC] [main.go:25] (goroutine 1) "
        ++ "unexpected state: 7" ++ newline) = 1%nat.
Proof.
  split; [left; reflexivity|]. split; [reflexivity|].
  destruct (panic_emits_under_every_enum_threshold plain_Sprint sampleRuntime
              "unexpected state: %v" [AInt 7] strictWorld
              (or_introl eq_refl) eq_refl) as [Hrun [_ Hone]].
  split; [exact Hrun | apply Hone; reflexivity].
Defined.

(** C2, as stated, fails: with a newline inside the message Panic
    writes two lines before it panics. *)
Lemma panic_newline_message_writes_two_lines :
  In (currentLogLevel strictWorld) LogLevels
  /\ contextResolves strictWorld sampleRuntime = true
  /\ Panic plain_Sprint sampleRuntime twoLineTemplate [] strictWorld
     = (Raise (PString twoLineTemplate),
        wrote strictWorld
          ("💥 PANIC     [2024-12-11 15:04:05.123 UTC] [main.go:25] (goroutine 1) a"
           ++ newline ++ "b" ++ newline))
  /\ newlineCount
       ("💥 PANIC     [2024-12-11 15:04:05.123 UTC] [main.go:25] (goroutine 1) a"
        ++ newline ++ "b" ++ newline) = 2%nat.
Proof.
  split; [left; reflexivity|]. split; [reflexivity|]. split; reflexivity.
Qed.

(** C3.  Under every threshold, Success, Init and Config each emit a
    line exactly when Info does. *)
Theorem success_init_config_filter_as_info
        (cs : list Attribute -> string -> string) (rt : Runtime)
        (format : string) (args : list any) (w : World) :
  (emitsLine (Success cs rt format args) w <-> emitsLine (Info cs rt format args) w)
  /\ (emitsLine (Init cs rt format args) w <-> emitsLine (Info cs rt format args) w)
  /\ (emitsLine (Config cs rt format args) w <-> emitsLine (Info cs rt format args) w).
Proof.
  unfold Success, Init, Config, Info.
  repeat split; intros H;
    apply logWithTimestamp_emits_iff; apply logWithTimestamp_emits_iff in H; exact H.
Qed.

(** C4.  Metric's message body is the name, a colon and a space, the
    value, and the bracketed comma-separated tags only when there are
    tags; the line is filtered at Info severity. *)
Theorem metric_format_and_filter
        (cs : list Attribute -> string -> string) (rt : Runtime)
        (name : string) (value : any) (tags : list string) (w : World) :
  contextResolves w rt = true ->
  (InfoLevel <= currentLogLevel w ->
   Metric cs rt name value tags w
   = (Return tt,
      wrote w (assembleLine (metricPrefix cs) (now rt) (resolvedFileLine w rt)
                            (resolvedContextID w rt) (metricBody name value tags)
               ++ newline)))
  /\ (InfoLevel > currentLogLevel w -> Metric cs rt name value tags w = (Return tt, w))
  /\ metricBody name value [] = name ++ ": " ++ fmtV value.
Proof.
  intros Hctx; unfold Metric; rewrite metric_message. repeat split.
  - intros Hle. apply (logWithTimestamp_emit _ _ _ _ _ Hle Hctx).
  - intros Hgt. apply (logWithTimestamp_skip _ _ _ _ _ Hgt).
  - unfold metricBody. now rewrite append_empty_r.
Qed.

Lemma metric_format_and_filter_witness :
  contextResolves initWorld sampleRuntime = true
  /\ Metric plain_Sprint sampleRuntime "latency_ms" (AFloat64 "156.3")
            ["endpoint=/api/users"] initWorld
     = (Return tt,
        wrote initWorld
          ("📊 METRIC    [2024-12-11 15:04:05.123 UTC] [main.go:25] (goroutine 1) "
           ++ "latency_ms: 156.3 [endpoint=/api/users]" ++ newline)).
Proof.
  split; [reflexivity|].
  refine (proj1 (metric_format_and_filter plain_Sprint sampleRuntime "latency_ms"
                   (AFloat64 "156.3") ["endpoint=/api/users"] initWorld _) _);
    [reflexivity | unfold initWorld, InfoLevel; simpl; lia].
Defined.

(** ** Annotations that cannot be resolved *)



(** ** Line layout *)

(** C6.  An emitted line is the prefix, a space, the bracketed
    timestamp, the bracketed file:line when enabled and resolved, the
    parenthesized context identifier when enabled and resolved, a space
    and the message; with both annotations off it is just prefix,
    bracketed timestamp and message. *)
Theorem line_layout
        (cs : list Attribute -> string -> string) (rt : Runtime) (c : Call) (w : World) :
  boundSeverity c <= currentLogLevel w ->
  (contextResolves w rt = true ->
   stdout (snd (call cs rt c w))
   = (stdout w
      ++ [(assembleLine (prefixOf cs c) (now rt) (resolvedFileLine w rt)
                        (resolvedContextID w rt) (messageOf c) ++ newline)%string])%list)
  /\ (showFileLine w = false -> showGoroutineID w = false ->
      stdout (snd (call cs rt c w))
      = (stdout w
         ++ [(prefixOf cs c ++ " [" ++ now rt ++ "] " ++ messageOf c
              ++ newline)%string])%list).
Proof.
  intros Hle.
  assert (Hgen : contextResolves w rt = true ->
                 stdout (snd (call cs rt c w))
                 = (stdout w
                    ++ [(assembleLine (prefixOf cs c) (now rt) (resolvedFileLine w rt)
                           (resolvedContextID w rt) (messageOf c) ++ newline)%string])%list).
  { intros Hctx. rewrite call_run, (logWithTimestamp_emit _ _ _ _ _ Hle Hctx).
    now destruct (isFatal c). }
  split; [exact Hgen|].
  intros Hf Hg. rewrite Hgen by (unfold contextResolves; now rewrite Hg).
  unfold assembleLine, resolvedFileLine, resolvedContextID. rewrite Hf, Hg.
  do 2 f_equal. normalize_appends.
Qed.

Lemma line_layout_witness :
  boundSeverity sampleCall <= currentLogLevel sampleWorld
  /\ stdout (snd (call plain_Sprint sampleRuntime sampleCall sampleWorld))
     = ["❌ ERROR     [2024-12-11 15:04:05.123 UTC] [main.go:25] (goroutine 1) y=5"
        ++ newline].
Proof.
  split; [unfold sampleCall, sampleWorld; simpl; unfold ErrorLevel, WarningLevel; lia|].
  refine (proj1 (line_layout plain_Sprint sampleRuntime sampleCall sampleWorld _) _);
    [unfold sampleCall, sampleWorld; simpl; unfold ErrorLevel, WarningLevel; lia
    | reflexivity].
Defined.

(** ** The level enumeration *)

(** C7.  The six levels are numbered in strictly increasing order from
    Panic to Trace, and the emit routine compares levels in that
    numeric order: a line comes out exactly when the call's level is at
    most the threshold. *)
Theorem level_order_drives_filter
        (rt : Runtime) (prefix msg : string) (level : LogLevel) (w : World) :
  contextResolves w rt = true ->
  (PanicLevel < ErrorLevel /\ ErrorLevel < WarningLevel /\ WarningLevel < InfoLevel
   /\ InfoLevel < DebugLevel /\ DebugLevel < TraceLevel)
  /\ (emitsLine (logWithTimestamp rt prefix msg level) w <-> level <= currentLogLevel w).
Proof.
  intros Hctx. split.
  - unfold PanicLevel, ErrorLevel, WarningLevel, InfoLevel, DebugLevel, TraceLevel; lia.
  - split.
    + intros H; apply logWithTimestamp_emits_iff in H; tauto.
    + intros H; apply logWithTimestamp_emits_iff; tauto.
Qed.

Lemma level_order_drives_filter_witness :
  contextResolves sampleWorld sampleRuntime = true
  /\ (emitsLine (logWithTimestamp sampleRuntime "INFO" "x" InfoLevel) sampleWorld
      <-> InfoLevel <= currentLogLevel sampleWorld).
Proof.
  split; [reflexivity|].
  apply (level_order_drives_filter sampleRuntime "INFO" "x" InfoLevel sampleWorld).
  reflexivity.
Defined.

(** ** Configuration *)

(** C8.  Each setter returns normally, stores its argument in its own
    variable, and leaves the other two variables and standard output
    as they were. *)
Theorem setters_frame (level : LogLevel) (show : bool) (w : World) :
  (let r := SetLogLevel level w in
   fst r = Return tt /\ currentLogLevel (snd r) = level
   /\ showFileLine (snd r) = showFileLine w
   /\ showGoroutineID (snd r) = showGoroutineID w
   /\ stdout (snd r) = stdout w)
  /\ (let r := SetShowFileLine show w in
      fst r = Return tt /\ showFileLine (snd r) = show
      /\ currentLogLevel (snd r) = currentLogLevel w
      /\ showGoroutineID (snd r) = showGoroutineID w
      /\ stdout (snd r) = stdout w)
  /\ (let r := SetShowGoroutineID show w in
      fst r = Return tt /\ showGoroutineID (snd r) = show
      /\ currentLogLevel (snd r) = currentLogLevel w
      /\ showFileLine (snd r) = showFileLine w
      /\ stdout (snd r) = stdout w).
Proof. repeat split. Qed.

(** ** Panic *)

(** C9.  The value Panic panics with is the interpolated message, the
    very string that is the message body of the line it writes.  The
    goroutine dump is assumed to name the goroutine wherever that
    annotation is on. *)
Theorem panic_value_is_message
        (cs : list Attribute -> string -> string) (rt : Runtime)
        (format : string) (args : list any) (w : World) :
  contextResolves w rt = true ->
  fst (Panic cs rt format args w) = Raise (PString (Sprintf format args))
  /\ (PanicLevel <= currentLogLevel w ->
      stdout (snd (Panic cs rt format args w))
      = (stdout w
         ++ [(assembleLine (panicPrefix cs) (now rt) (resolvedFileLine w rt)
                           (resolvedContextID w rt) (Sprintf format args)
              ++ newline)%string])%list).
Proof.
  intros Hctx. unfold Panic, bind, panic. split.
  - destruct (Z_le_gt_dec PanicLevel (currentLogLevel w)) as [Hle|Hgt].
    + now rewrite (logWithTimestamp_emit _ _ _ _ _ Hle Hctx).
    + now rewrite (logWithTimestamp_skip _ _ _ _ _ Hgt).
  - intros Hle. now rewrite (logWithTimestamp_emit _ _ _ _ _ Hle Hctx).
Qed.

Lemma panic_value_is_message_witness :
  contextResolves strictWorld sampleRuntime = true
  /\ fst (Panic plain_Sprint sampleRuntime "unexpected state: %v" [AInt 7] strictWorld)
     = Raise (PString "unexpected state: 7")
  /\ stdout (snd (Panic plain_Sprint sampleRuntime "unexpected state: %v" [AInt 7]
                        strictWorld))
     = ["💥 PANIC     [2024-12-11 15:04:05.123 UTC] [main.go:25] (goroutine 1) "
        ++ "unexpected state: 7" ++ newline].
Proof.
  split; [reflexivity|].
  destruct (panic_value_is_message plain_Sprint sampleRuntime "unexpected state: %v"
              [AInt 7] strictWorld eq_refl) as [Hvalue Hline].
  split; [exact Hvalue|].
  refine (Hline _). unfold strictWorld, PanicLevel; simpl; lia.
Defined.

(** C10.  SetLogLevel takes any integer.  After a threshold below
    PanicLevel is set, no channel writes anything, Panic included; the
    other channels return normally and Panic still panics with its
    message. *)
Theorem threshold_below_panic_silences_all
        (cs : list Attribute -> string -> string) (rt : Runtime) (c : Call)
        (level : LogLevel) (w : World) :
  level < PanicLevel ->
  exists w1,
    SetLogLevel level w = (Return tt, w1)
    /\ currentLogLevel w1 = level
    /\ call cs rt c w1
       = (if isFatal c then Raise (PString (messageOf c)) else Return tt, w1).
Proof.
  intros Hlt. eexists; split; [reflexivity|]. split; [reflexivity|].
  rewrite call_run, logWithTimestamp_skip.
  - now destruct (isFatal c).
  - simpl. destruct c; unfold boundSeverity, PanicLevel, ErrorLevel, WarningLevel,
      InfoLevel, DebugLevel, TraceLevel in *; lia.
Qed.

Lemma threshold_below_panic_silences_all_witness :
  -1 < PanicLevel
  /\ exists w1,
       SetLogLevel (-1) initWorld = (Return tt, w1)
       /\ currentLogLevel w1 = -1
       /\ call plain_Sprint sampleRuntime (CallPanic "boom %d" [AInt 1]) w1
          = (Raise (PString (messageOf (CallPanic "boom %d" [AInt 1]))), w1).
Proof.
  split; [unfold PanicLevel; lia|].
  apply (threshold_below_panic_silences_all plain_Sprint sampleRuntime
           (CallPanic "boom %d" [AInt 1]) (-1) initWorld).
  unfold PanicLevel; lia.
Defined.

(** ** Further properties: what one call does to the world *)

Lemma logWithTimestamp_cases (rt : Runtime) (prefix msg : string) (level : LogLevel)
      (w : World) :
  logWithTimestamp rt prefix msg level w = (Return tt, w)
  \/ (exists line, logWithTimestamp rt prefix msg level w
                   = (Return tt, wrote w (line ++ newline)))
  \/ logWithTimestamp rt prefix msg level w
     = (Raise (PRuntimeError "index out of range [0] with length 0"), w).
Proof.
  destruct (Z_le_gt_dec level (currentLogLevel w)) as [Hle|Hgt].
  - destruct (contextResolves w rt) eqn:Hctx.
    + right; left. rewrite (logWithTimestamp_emit _ _ _ _ _ Hle Hctx).
      eexists; reflexivity.
    + right; right. unfold contextResolves in Hctx.
      destruct (showGoroutineID w) eqn:Hg; [|discriminate].
      destruct (goroutineToken rt) eqn:Hid; [discriminate|].
      apply (logWithTimestamp_fails _ _ _ _ _ Hle Hg Hid).
  - left. apply (logWithTimestamp_skip _ _ _ _ _ Hgt).
Qed.

Lemma call_cases (cs : list Attribute -> string -> string) (rt : Runtime) (c : Call)
      (w : World) :
  (exists r, call cs rt c w = (r, w))
  \/ (exists r line, call cs rt c w = (r, wrote w (line ++ newline))).
Proof.
  rewrite call_run.
  destruct (logWithTimestamp_cases rt (prefixOf cs c) (messageOf c) (boundSeverity c) w)
    as [-> | [[line ->] | ->]].
  - left. destruct (isFatal c); eexists; reflexivity.
  - right. destruct (isFatal c); do 2 eexists; reflexivity.
  - left. eexists; reflexivity.
Qed.

Lemma endsWithNewline_terminated (line : string) :
  endsWithNewline (line ++ newline) = true.
Proof.
  induction line as [|c line IH]; [reflexivity|].
  simpl. destruct (line ++ newline) eqn:E; [|exact IH].
  destruct line; discriminate.
Qed.

(** X1.  No emission call changes the configuration: whatever it
    writes and however it ends, the threshold and the two annotation
    switches are as before. *)
Theorem call_preserves_config
        (cs : list Attribute -> string -> string) (rt : Runtime) (c : Call) (w : World) :
  sameConfig w (snd (call cs rt c w)).
Proof.
  destruct (call_cases cs rt c w) as [[r ->] | [r [line ->]]];
    repeat split.
Qed.

(** X2.  Standard output is append-only and grows by at most one write
    per call: the earlier output is a prefix of the later one. *)
Theorem call_appends_at_most_one_line
        (cs : list Attribute -> string -> string) (rt : Runtime) (c : Call) (w : World) :
  exists lines,
    stdout (snd (call cs rt c w)) = (stdout w ++ lines)%list
    /\ (List.length lines <= 1)%nat.
Proof.
  destruct (call_cases cs rt c w) as [[r ->] | [r [line ->]]].
  - exists []. simpl. now rewrite List.app_nil_r; split; [|lia].
  - eexists; split; [reflexivity|simpl; lia].
Qed.

(** X3.  If every earlier write ended in a newline, so does every
    write after the call: a call never leaves a partial line behind,
    not even when it panics. *)
Theorem call_keeps_writes_terminated
        (cs : list Attribute -> string -> string) (rt : Runtime) (c : Call) (w : World) :
  forallb endsWithNewline (stdout w) = true ->
  forallb endsWithNewline (stdout (snd (call cs rt c w))) = true.
Proof.
  intros Hw. destruct (call_cases cs rt c w) as [[r ->] | [r [line ->]]].
  - exact Hw.
  - simpl. rewrite List.forallb_app, Hw. simpl.
    now rewrite endsWithNewline_terminated.
Qed.

Lemma call_keeps_writes_terminated_witness :
  forallb endsWithNewline (stdout sampleWorld) = true
  /\ forallb endsWithNewline
       (stdout (snd (call plain_Sprint sampleRuntime sampleCall sampleWorld))) = true.
Proof.
  split; [reflexivity|].
  apply (call_keeps_writes_terminated plain_Sprint sampleRuntime sampleCall sampleWorld).
  reflexivity.
Defined.

(** X4.  With the goroutine annotation on and a dump that names no
    goroutine, a call whose severity passes the threshold panics with
    an index error before anything is written, and for Panic the index
    error replaces the message as the panic value; a call below the
    threshold never looks at the dump and ends as usual. *)
Theorem unresolved_id_outcome
        (cs : list Attribute -> string -> string) (rt : Runtime) (c : Call) (w : World) :
  showGoroutineID w = true ->
  goroutineToken rt = None ->
  (boundSeverity c <= currentLogLevel w ->
   call cs rt c w = (Raise (PRuntimeError "index out of range [0] with length 0"), w))
  /\ (boundSeverity c > currentLogLevel w ->
      call cs rt c w
      = (if isFatal c then Raise (PString (messageOf c)) else Return tt, w)).
Proof.
  intros Hg Hid; rewrite call_run; split; intros Hlevel.
  - now rewrite (logWithTimestamp_fails _ _ _ _ _ Hlevel Hg Hid).
  - rewrite (logWithTimestamp_skip _ _ _ _ _ Hlevel). now destruct (isFatal c).
Qed.

Lemma unresolved_id_outcome_witness :
  showGoroutineID strictWorld = true
  /\ goroutineToken blankDumpRuntime = None
  /\ call plain_Sprint blankDumpRuntime (CallPanic "boom %d" [AInt 1]) strictWorld
     = (Raise (PRuntimeError "index out of range [0] with length 0"), strictWorld).
Proof.
  split; [reflexivity|]. split; [reflexivity|].
  refine (proj1 (unresolved_id_outcome plain_Sprint blankDumpRuntime
                   (CallPanic "boom %d" [AInt 1]) strictWorld eq_refl eq_refl) _).
  simpl; unfold PanicLevel; lia.
Defined.

(** ** Further properties: the goroutine annotation *)

Lemma substring_0_length (s : string) : substring 0 (String.length s) s = s.
Proof. induction s as [|c s IH]; simpl; [reflexivity | now rewrite IH]. Qed.

Lemma substring_0_app_ge (n : nat) (t s : string) :
  substring 0 (String.length t + n) (t ++ s) = t ++ substring 0 n s.
Proof. induction t as [|c t IH]; simpl; [reflexivity | now rewrite IH]. Qed.

Lemma spaceFree_app (a b : string) :
  spaceFree (a ++ b) = spaceFree a && spaceFree b.
Proof.
  induction a as [|c a IH]; simpl; [reflexivity|].
  rewrite IH. apply Bool.andb_assoc.
Qed.

Lemma fieldsFrom_spaceFree_app (cur t s : string) :
  spaceFree t = true -> fieldsFrom cur (t ++ s) = fieldsFrom (cur ++ t) s.
Proof.
  revert cur; induction t as [|c t IH]; intros cur Ht; simpl in *.
  - now rewrite append_empty_r.
  - apply Bool.andb_true_iff in Ht as [Hc Ht].
    apply Bool.negb_true_iff in Hc. rewrite Hc, IH by exact Ht.
    now rewrite append_assoc.
Qed.

Lemma fieldsFrom_well_formed (cur s : string) :
  spaceFree cur = true ->
  Forall (fun f => isEmpty f = false /\ spaceFree f = true) (fieldsFrom cur s).
Proof.
  revert cur; induction s as [|c s IH]; intros cur Hcur; simpl.
  - destruct (isEmpty cur) eqn:E; constructor; [now split | constructor].
  - destruct (isSpace c) eqn:Hc.
    + destruct (isEmpty cur) eqn:E; [now apply IH|].
      constructor; [now split | now apply IH].
    + apply IH. rewrite spaceFree_app, Hcur. simpl. now rewrite Hc.
Qed.

Lemma header_trimmed (now0 : string) (caller0 : option (string * Z)) (id rest : string) :
  TrimPrefix (runtime_Stack 64 (headerRuntime now0 caller0 id rest)) "goroutine "
  = substring 0 54 (id ++ rest).
Proof.
  unfold TrimPrefix, runtime_Stack, headerRuntime; cbn.
  replace (prefix "" (substring 0 54 (id ++ rest))) with true
    by (now destruct (substring 0 54 (id ++ rest))).
  rewrite Nat.sub_0_r. apply substring_0_length.
Qed.

Lemma goroutineToken_header (now0 : string) (caller0 : option (string * Z))
      (id : string) (sp : ascii) (rest : string) :
  spaceFree id = true -> isEmpty id = false -> isSpace sp = true ->
  (String.length id <= 53)%nat ->
  goroutineToken (headerRuntime now0 caller0 id (String sp rest)) = Some id.
Proof.
  intros Hfree Hne Hsp Hlen. unfold goroutineToken. rewrite header_trimmed.
  replace 54%nat with (String.length id + S (53 - String.length id))%nat by lia.
  rewrite substring_0_app_ge. unfold Fields.
  rewrite fieldsFrom_spaceFree_app by exact Hfree.
  cbn [append substring fieldsFrom]. now rewrite Hsp, Hne.
Qed.

Lemma nonzero_digits_spaceFree (d : Decimal.uint) :
  spaceFree (NilEmpty.string_of_uint d) = true.
Proof. induction d; simpl; auto. Qed.

Lemma itoa_spaceFree (i : Z) : spaceFree (itoa i) = true.
Proof.
  unfold itoa, NilZero.string_of_int, NilZero.string_of_uint.
  destruct (Z.to_int i) as [d|d]; destruct d; simpl;
    try reflexivity; apply nonzero_digits_spaceFree.
Qed.

Lemma itoa_nonempty (i : Z) : isEmpty (itoa i) = false.
Proof.
  unfold itoa, NilZero.string_of_int, NilZero.string_of_uint.
  destruct (Z.to_int i) as [d|d]; destruct d; reflexivity.
Qed.

(** X5.  For a dump that begins, as the Go runtime writes it, with
    [goroutine], the decimal identifier and white space, the annotation
    is [(goroutine <id>)], provided the digits of the identifier fit in
    the 64-byte buffer after the ten bytes of the header word (at most 53
    digits, which every 64-bit identifier satisfies). *)
Theorem goroutine_id_of_runtime_header
        (now0 : string) (caller0 : option (string * Z)) (id : Z) (sp : ascii)
        (rest : string) (w : World) :
  showGoroutineID w = true ->
  isSpace sp = true ->
  (String.length (itoa id) <= 53)%nat ->
  getGoroutineID (headerRuntime now0 caller0 (itoa id) (String sp rest)) w
  = (Return ("(goroutine " ++ itoa id ++ ")"), w).
Proof.
  intros Hg Hsp Hlen. apply getGoroutineID_on; [exact Hg|].
  apply goroutineToken_header;
    [apply itoa_spaceFree | apply itoa_nonempty | exact Hsp | exact Hlen].
Qed.

Lemma goroutine_id_of_runtime_header_witness :
  showGoroutineID initWorld = true
  /\ isSpace " " = true
  /\ (String.length (itoa 18446744073709551615) <= 53)%nat
  /\ getGoroutineID
       (headerRuntime "" None (itoa 18446744073709551615) " [running]:") initWorld
     = (Return "(goroutine 18446744073709551615)", initWorld).
Proof.
  split; [reflexivity|]. split; [reflexivity|]. split; [vm_compute; lia|].
  apply (goroutine_id_of_runtime_header "" None 18446744073709551615 " "
           "[running]:" initWorld); [reflexivity | reflexivity | vm_compute; lia].
Defined.

(** X7.  Whatever the dump holds, the annotation lookup leaves the
    world alone and ends in one of three ways: the empty string when the
    annotation is off; [(goroutine <id>)] with an identifier that is
    non-empty and free of white space; or the index error, which
    happens only when the annotation is on and the dump has no field. *)
Theorem getGoroutineID_outcomes (rt : Runtime) (w : World) :
  (showGoroutineID w = false /\ getGoroutineID rt w = (Return "", w))
  \/ (showGoroutineID w = true
      /\ exists id, getGoroutineID rt w = (Return ("(goroutine " ++ id ++ ")"), w)
                    /\ isEmpty id = false /\ spaceFree id = true)
  \/ (showGoroutineID w = true /\ goroutineToken rt = None
      /\ getGoroutineID rt w
         = (Raise (PRuntimeError "index out of range [0] with length 0"), w)).
Proof.
  destruct (showGoroutineID w) eqn:Hg.
  - destruct (goroutineToken rt) as [id|] eqn:Hid.
    + right; left. split; [reflexivity|]. exists id.
      split; [now apply getGoroutineID_on|].
      unfold goroutineToken, Fields in Hid.
      pose proof (fieldsFrom_well_formed ""
                    (TrimPrefix (runtime_Stack 64 rt) "goroutine ") eq_refl) as Hwf.
      destruct (fieldsFrom _ _) as [|f fs]; [discriminate|].
      injection Hid as <-. now inversion Hwf.
    + right; right. repeat split. now apply getGoroutineID_fails.
  - left. split; [reflexivity|]. now apply getGoroutineID_off.
Qed.

(** ** Further properties: the source-location annotation *)

Lemma separatorFree_of_list (l : list ascii) :
  separatorFree (string_of_list_ascii l)
  = forallb (fun c => negb (isPathSeparator c)) l.
Proof. induction l as [|c l IH]; simpl; [reflexivity | now rewrite IH]. Qed.

Lemma takeWhile_forallb (p : ascii -> bool) (l : list ascii) :
  forallb p (takeWhile p l) = true.
Proof.
  induction l as [|c l IH]; simpl; [reflexivity|].
  destruct (p c) eqn:E; simpl; [now rewrite E | reflexivity].
Qed.

Lemma forallb_rev (p : ascii -> bool) (l : list ascii) :
  forallb p (rev l) = forallb p l.
Proof.
  induction l as [|c l IH]; simpl; [reflexivity|].
  rewrite List.forallb_app, IH; simpl. rewrite Bool.andb_true_r. apply Bool.andb_comm.
Qed.

Lemma takeWhile_app_stop (p : ascii -> bool) (l : list ascii) (c : ascii)
      (l' : list ascii) :
  forallb p l = true -> p c = false -> takeWhile p (l ++ c :: l') = l.
Proof.
  intros Hl Hc. induction l as [|x l IH]; simpl in *.
  - now rewrite Hc.
  - apply Bool.andb_true_iff in Hl as [Hx Hl]. now rewrite Hx, IH.
Qed.

Lemma list_ascii_of_string_app (a b : string) :
  list_ascii_of_string (a ++ b) = (list_ascii_of_string a ++ list_ascii_of_string b)%list.
Proof. induction a as [|c a IH]; simpl; [reflexivity | now rewrite IH]. Qed.

Lemma Base_no_directory (path : string) :
  Base path = "/" \/ separatorFree (Base path) = true.
Proof.
  unfold Base. destruct (isEmpty path); [now right|].
  set (last := takeWhile _ _).
  assert (Hlast : forallb (fun c => negb (isPathSeparator c)) last = true)
    by apply takeWhile_forallb.
  destruct last as [|c last]; [now left|right].
  now rewrite separatorFree_of_list, forallb_rev.
Qed.

Lemma Base_last_element (dir name : string) :
  isEmpty name = false -> separatorFree name = true ->
  Base (dir ++ "/" ++ name) = name.
Proof.
  intros Hne Hfree. unfold Base.
  replace (isEmpty (dir ++ "/" ++ name)) with false by (now destruct dir).
  rewrite list_ascii_of_string_app, List.rev_app_distr.
  change (list_ascii_of_string ("/" ++ name))
    with ("/"%char :: list_ascii_of_string name).
  assert (Hall : forallb (fun c => negb (isPathSeparator c))
                         (rev (list_ascii_of_string name)) = true).
  { rewrite forallb_rev, <- separatorFree_of_list.
    now rewrite string_of_list_ascii_of_string. }
  simpl rev. rewrite <- List.app_assoc. simpl app.
  destruct (rev (list_ascii_of_string name)) as [|c r] eqn:Er.
  { apply (f_equal (@rev ascii)) in Er. rewrite List.rev_involutive in Er.
    destruct name; [discriminate Hne | discriminate Er]. }
  assert (Hc : isPathSeparator c = false).
  { simpl in Hall. apply Bool.andb_true_iff in Hall as [Hc _].
    now apply Bool.negb_true_iff in Hc. }
  simpl dropWhile. rewrite Hc.
  change (c :: (r ++ "/"%char :: rev (list_ascii_of_string dir))%list)
    with (((c :: r) ++ "/"%char :: rev (list_ascii_of_string dir))%list).
  rewrite takeWhile_app_stop by (exact Hall || reflexivity).
  cbv beta iota. rewrite <- Er, List.rev_involutive.
  apply string_of_list_ascii_of_string.
Qed.

(** X8.  The source-location lookup never fails and never shows a
    directory: it returns the empty string, or [<base>:<line>] where the
    base is free of path separators or is the lone separator of a path
    made of separators only. *)
Theorem getFileInfo_never_shows_directory (rt : Runtime) (w : World) :
  getFileInfo rt w = (Return "", w)
  \/ exists base line,
       getFileInfo rt w = (Return (base ++ ":" ++ itoa line), w)
       /\ (base = "/" \/ separatorFree base = true).
Proof.
  rewrite getFileInfo_run. unfold resolvedFileLine.
  destruct (showFileLine w); [|now left].
  destruct (caller rt) as [[file line]|]; [|now left].
  right. exists (Base file), line. split; [reflexivity | apply Base_no_directory].
Qed.

(** X9.  With the annotation on and a caller in file [<dir>/<name>],
    where the name is non-empty and has no separator, the annotation is
    [<name>:<line>]: the directory part is dropped whole. *)
Theorem getFileInfo_shows_last_element
        (rt : Runtime) (w : World) (dir name : string) (line : Z) :
  showFileLine w = true ->
  caller rt = Some (dir ++ "/" ++ name, line) ->
  isEmpty name = false ->
  separatorFree name = true ->
  getFileInfo rt w = (Return (name ++ ":" ++ itoa line), w).
Proof.
  intros Hshow Hcaller Hne Hfree.
  rewrite getFileInfo_run. unfold resolvedFileLine. rewrite Hshow, Hcaller.
  now rewrite Base_last_element.
Qed.

Lemma getFileInfo_shows_last_element_witness :
  showFileLine initWorld = true
  /\ caller sampleRuntime = Some ("/srv/app" ++ "/" ++ "main.go", 25)
  /\ isEmpty "main.go" = false
  /\ separatorFree "main.go" = true
  /\ getFileInfo sampleRuntime initWorld = (Return ("main.go" ++ ":" ++ itoa 25), initWorld).
Proof.
  repeat (split; [reflexivity|]).
  apply (getFileInfo_shows_last_element sampleRuntime initWorld "/srv/app" "main.go" 25);
    reflexivity.
Defined.

(** ** Further properties: calls one after the other *)

Lemma call_non_fatal_run (cs : list Attribute -> string -> string) (rt : Runtime)
      (c : Call) (w : World) :
  isFatal c = false -> contextResolves w rt = true ->
  call cs rt c w
  = if permitted w c then (Return tt, wrote w (renderCall cs w (rt, c)))
    else (Return tt, w).
Proof.
  intros Hfatal Hctx. rewrite call_run, Hfatal. unfold permitted.
  destruct (Z.leb_spec (boundSeverity c) (currentLogLevel w)) as [Hle|Hgt].
  - now rewrite (logWithTimestamp_emit _ _ _ _ _ Hle Hctx).
  - rewrite logWithTimestamp_skip by lia. reflexivity.
Qed.

Lemma bind_call_emits {B : Type} (cs : list Attribute -> string -> string)
      (rt : Runtime) (c : Call) (k : unit -> M B) (w : World) :
  isFatal c = false -> contextResolves w rt = true -> permitted w c = true ->
  bind (call cs rt c) k w = k tt (wrote w (renderCall cs w (rt, c))).
Proof.
  intros Hfatal Hctx Hp. unfold bind.
  now rewrite (call_non_fatal_run cs rt c w Hfatal Hctx), Hp.
Qed.

Lemma bind_call_skips {B : Type} (cs : list Attribute -> string -> string)
      (rt : Runtime) (c : Call) (k : unit -> M B) (w : World) :
  isFatal c = false -> permitted w c = false ->
  bind (call cs rt c) k w = k tt w.
Proof.
  intros Hfatal Hp. unfold bind. rewrite call_run, Hfatal.
  unfold permitted in Hp. apply Z.leb_gt in Hp.
  rewrite logWithTimestamp_skip by lia. reflexivity.
Qed.

Lemma runCalls_run (cs : list Attribute -> string -> string)
      (prog : list (Runtime * Call)) (w : World) :
  forallb (stepRuns w) prog = true ->
  runCalls cs prog w
  = (Return tt,
     mkWorld (currentLogLevel w) (showFileLine w) (showGoroutineID w)
             (stdout w
              ++ map (renderCall cs w) (filter (fun rc => permitted w (snd rc)) prog))).
Proof.
  revert w; induction prog as [|[rt c] prog IH]; intros w Hrun.
  - simpl. rewrite List.app_nil_r. now destruct w.
  - simpl in Hrun. apply Bool.andb_true_iff in Hrun as [Hstep Hrun].
    unfold stepRuns in Hstep; simpl in Hstep.
    apply Bool.andb_true_iff in Hstep as [Hfatal Hctx].
    apply Bool.negb_true_iff in Hfatal.
    simpl runCalls. simpl filter. destruct (permitted w c) eqn:Hp.
    + rewrite (bind_call_emits cs rt c _ w Hfatal Hctx Hp).
      rewrite (IH (wrote w (renderCall cs w (rt, c)))) by exact Hrun.
      simpl. now rewrite <- List.app_assoc.
    + rewrite (bind_call_skips cs rt c _ w Hfatal Hp). now apply IH.
Qed.

Lemma Panic_raises (cs : list Attribute -> string -> string) (rt : Runtime)
      (format : string) (args : list any) (w : World) :
  exists v w', Panic cs rt format args w = (Raise v, w').
Proof.
  unfold Panic, bind, panic.
  destruct (logWithTimestamp _ _ _ _ _) as [[[]|v] w']; do 2 eexists; reflexivity.
Qed.

(** X10.  A straight-line program of calls other than Panic, each with
    a dump that names the goroutine, returns normally with the
    configuration it started with, and its output is exactly the lines
    of the calls whose severity passes the threshold, in program order. *)
Theorem straight_line_output
        (cs : list Attribute -> string -> string) (prog : list (Runtime * Call))
        (w : World) :
  forallb (stepRuns w) prog = true ->
  runCalls cs prog w
  = (Return tt,
     mkWorld (currentLogLevel w) (showFileLine w) (showGoroutineID w)
             (stdout w
              ++ map (renderCall cs w) (filter (fun rc => permitted w (snd rc)) prog))).
Proof. apply runCalls_run. Qed.

Lemma straight_line_output_witness :
  forallb (stepRuns sampleWorld)
          [(sampleRuntime, CallInfo "x" []); (sampleRuntime, sampleCall)] = true
  /\ runCalls plain_Sprint [(sampleRuntime, CallInfo "x" []); (sampleRuntime, sampleCall)]
              sampleWorld
     = (Return tt,
        wrote sampleWorld
          ("❌ ERROR     [2024-12-11 15:04:05.123 UTC] [main.go:25] (goroutine 1) y=5"
           ++ newline)).
Proof.
  split; [reflexivity|].
  apply (straight_line_output plain_Sprint
           [(sampleRuntime, CallInfo "x" []); (sampleRuntime, sampleCall)] sampleWorld).
  reflexivity.
Defined.

(** X11.  Nothing runs after a Panic: a program with a Panic call in it
    ends in a panic, and what follows the Panic call has no effect on
    the result or on the output. *)
Theorem nothing_runs_after_panic
        (cs : list Attribute -> string -> string) (before after : list (Runtime * Call))
        (rt : Runtime) (format : string) (args : list any) (w : World) :
  runCalls cs (before ++ (rt, CallPanic format args) :: after) w
  = runCalls cs (before ++ [(rt, CallPanic format args)]) w
  /\ exists v w',
       runCalls cs (before ++ (rt, CallPanic format args) :: after) w = (Raise v, w').
Proof.
  revert w; induction before as [|[rt0 c0] before IH]; intros w.
  - simpl. unfold bind.
    destruct (Panic_raises cs rt format args w) as [v [w' ->]].
    split; [reflexivity | do 2 eexists; reflexivity].
  - simpl. unfold bind. destruct (call cs rt0 c0 w) as [[[]|v] w1].
    + apply IH.
    + split; [reflexivity | do 2 eexists; reflexivity].
Qed.

(** X12.  Raising the threshold never loses or alters a line: a call
    that writes a line under one threshold writes the same line under
    every higher one. *)
Theorem raising_threshold_keeps_line
        (cs : list Attribute -> string -> string) (rt : Runtime) (c : Call)
        (level : LogLevel) (w : World) :
  currentLogLevel w <= level ->
  emitsLine (call cs rt c) w ->
  stdout (snd (call cs rt c (snd (SetLogLevel level w))))
  = stdout (snd (call cs rt c w)).
Proof.
  intros Hlevel Hemit.
  assert (Hlog : emitsLine
                   (logWithTimestamp rt (prefixOf cs c) (messageOf c) (boundSeverity c)) w).
  { destruct Hemit as [line Hline]. exists line. rewrite call_run in Hline.
    destruct (logWithTimestamp _ _ _ _ _) as [[[]|v] w']; [|exact Hline].
    now destruct (isFatal c). }
  apply logWithTimestamp_emits_iff in Hlog as [Hle Hctx].
  rewrite !call_run.
  rewrite (logWithTimestamp_emit rt _ _ _ w Hle Hctx).
  rewrite (logWithTimestamp_emit rt _ _ _ (snd (SetLogLevel level w)));
    [ | simpl; lia | exact Hctx ].
  now destruct (isFatal c).
Qed.

Lemma raising_threshold_keeps_line_witness :
  currentLogLevel sampleWorld <= TraceLevel
  /\ emitsLine (call plain_Sprint sampleRuntime sampleCall) sampleWorld
  /\ stdout (snd (call plain_Sprint sampleRuntime sampleCall
                       (snd (SetLogLevel TraceLevel sampleWorld))))
     = stdout (snd (call plain_Sprint sampleRuntime sampleCall sampleWorld)).
Proof.
  assert (Hemit : emitsLine (call plain_Sprint sampleRuntime sampleCall) sampleWorld)
    by (eexists; reflexivity).
  split; [unfold sampleWorld, WarningLevel, TraceLevel; simpl; lia|].
  split; [exact Hemit|].
  apply (raising_threshold_keeps_line plain_Sprint sampleRuntime sampleCall TraceLevel
           sampleWorld); [unfold sampleWorld, WarningLevel, TraceLevel; simpl; lia|].
  exact Hemit.
Defined.

(** ** Further properties: the switches, the defaults and the sample program *)

(** X13.  Switching the source-location annotation off removes the
    file:line segment from the next line whatever the runtime reports,
    and switching it back on restores the segment the runtime gives. *)
Theorem file_annotation_toggle
        (cs : list Attribute -> string -> string) (rt : Runtime) (c : Call) (w : World) :
  boundSeverity c <= currentLogLevel w ->
  contextResolves w rt = true ->
  stdout (snd ((SetShowFileLine false ;; call cs rt c) w))
  = (stdout w
     ++ [(assembleLine (prefixOf cs c) (now rt) None (resolvedContextID w rt)
                       (messageOf c) ++ newline)%string])%list
  /\ stdout (snd ((SetShowFileLine false ;; SetShowFileLine true ;; call cs rt c) w))
     = (stdout w
        ++ [(assembleLine (prefixOf cs c) (now rt)
               (match caller rt with
                | Some (file, line) => Some (Base file ++ ":" ++ itoa line)
                | None => None
                end)
               (resolvedContextID w rt) (messageOf c) ++ newline)%string])%list.
Proof.
  intros Hle Hctx. unfold bind, SetShowFileLine, modify. split.
  - rewrite call_run, logWithTimestamp_emit by assumption. now destruct (isFatal c).
  - rewrite call_run, logWithTimestamp_emit by assumption. now destruct (isFatal c).
Qed.

Lemma file_annotation_toggle_witness :
  boundSeverity sampleCall <= currentLogLevel sampleWorld
  /\ contextResolves sampleWorld sampleRuntime = true
  /\ stdout (snd ((SetShowFileLine false ;; call plain_Sprint sampleRuntime sampleCall)
                    sampleWorld))
     = ["❌ ERROR     [2024-12-11 15:04:05.123 UTC] (goroutine 1) y=5" ++ newline].
Proof.
  split; [simpl; unfold ErrorLevel, WarningLevel; lia|]. split; [reflexivity|].
  refine (proj1 (file_annotation_toggle plain_Sprint sampleRuntime sampleCall sampleWorld
                   _ eq_refl)).
  simpl; unfold ErrorLevel, WarningLevel; lia.
Defined.

(** X14.  With the goroutine annotation switched off the dump is never
    looked at: a call whose severity passes the threshold writes its
    line without the identifier segment and ends as usual, even for a
    dump that names no goroutine. *)
Theorem goroutine_annotation_off_needs_no_dump
        (cs : list Attribute -> string -> string) (rt : Runtime) (c : Call) (w : World) :
  boundSeverity c <= currentLogLevel w ->
  (SetShowGoroutineID false ;; call cs rt c) w
  = (if isFatal c then Raise (PString (messageOf c)) else Return tt,
     mkWorld (currentLogLevel w) (showFileLine w) false
             (stdout w
              ++ [assembleLine (prefixOf cs c) (now rt) (resolvedFileLine w rt) None
                               (messageOf c) ++ newline])).
Proof.
  intros Hle. unfold bind, SetShowGoroutineID, modify.
  rewrite call_run, logWithTimestamp_emit by (assumption || reflexivity).
  now destruct (isFatal c).
Qed.

Lemma goroutine_annotation_off_needs_no_dump_witness :
  boundSeverity sampleCall <= currentLogLevel sampleWorld
  /\ (SetShowGoroutineID false ;; call plain_Sprint blankDumpRuntime sampleCall) sampleWorld
     = (Return tt,
        mkWorld WarningLevel true false
          ["❌ ERROR     [2024-12-11 15:04:05.123 UTC] [main.go:25] y=5" ++ newline]).
Proof.
  split; [simpl; unfold ErrorLevel, WarningLevel; lia|].
  apply (goroutine_annotation_off_needs_no_dump plain_Sprint blankDumpRuntime sampleCall
           sampleWorld).
  simpl; unfold ErrorLevel, WarningLevel; lia.
Defined.

(** X15.  A process that never calls a setter shows no Debug and no
    Trace line: from the initial state both return without writing and
    without consulting the runtime. *)
Theorem defaults_silence_debug_and_trace
        (cs : list Attribute -> string -> string) (rt : Runtime)
        (format : string) (args : list any) :
  Debug cs rt format args initWorld = (Return tt, initWorld)
  /\ Trace cs rt format args initWorld = (Return tt, initWorld).
Proof.
  unfold Debug, Trace; split; apply logWithTimestamp_skip;
    unfold initWorld, InfoLevel, DebugLevel, TraceLevel; simpl; lia.
Qed.

Lemma percentFree_verbatim (format : string) :
  percentFree format = true -> Sprintf format [] = format.
Proof.
  unfold Sprintf. induction format as [|c format IH]; simpl; intros H; [reflexivity|].
  apply Bool.andb_true_iff in H as [Hc H]. apply Bool.negb_true_iff in Hc.
  now rewrite Hc, IH.
Qed.

Lemma percentFree_trailing_percent (format : string) :
  percentFree format = true -> Sprintf (format ++ "%") [] = format ++ "%!(NOVERB)".
Proof.
  unfold Sprintf. induction format as [|c format IH]; simpl; intros H; [reflexivity|].
  apply Bool.andb_true_iff in H as [Hc H]. apply Bool.negb_true_iff in Hc.
  now rewrite Hc, IH.
Qed.

(** X16.  The template always goes through the formatter, operands or
    not: a template without a percent sign is logged as it stands, but
    one that ends in a lone percent sign is logged with the formatter's
    [%!(NOVERB)] marker in its place. *)
Theorem template_without_operands
        (cs : list Attribute -> string -> string) (rt : Runtime) (format : string)
        (w : World) :
  percentFree format = true ->
  Info cs rt format [] w = logWithTimestamp rt (infoPrefix cs) format InfoLevel w
  /\ Info cs rt (format ++ "%") [] w
     = logWithTimestamp rt (infoPrefix cs) (format ++ "%!(NOVERB)") InfoLevel w.
Proof.
  intros H. unfold Info.
  now rewrite percentFree_verbatim, percentFree_trailing_percent.
Qed.

Lemma template_without_operands_witness :
  percentFree "disk usage at 100" = true
  /\ Info plain_Sprint sampleRuntime ("disk usage at 100" ++ "%") [] initWorld
     = (Return tt,
        wrote initWorld
          ("ℹ️  INFO      [2024-12-11 15:04:05.123 UTC] [main.go:25] (goroutine 1) "
           ++ "disk usage at 100%!(NOVERB)" ++ newline)).
Proof.
  split; [reflexivity|].
  refine (eq_trans
            (proj2 (template_without_operands plain_Sprint sampleRuntime
                      "disk usage at 100" initWorld eq_refl)) _).
  reflexivity.
Defined.

(** X17.  Tags are joined as they are, with no escaping: one tag that
    contains the separator gives the same line as the two tags it
    splits into. *)
Theorem metric_tags_not_escaped
        (cs : list Attribute -> string -> string) (rt : Runtime) (name : string)
        (value : any) (a b : string) (w : World) :
  Metric cs rt name value [a ++ ", " ++ b] w = Metric cs rt name value [a; b] w.
Proof. unfold Metric. rewrite !metric_message. reflexivity. Qed.

(** X18.  The sample program, whatever the state it starts in and
    whatever the clock and the runtime answer, as long as the dump
    names the goroutine at each call that passes the threshold: it
    returns normally, leaves the threshold at Debug with both
    annotations on, and has written fourteen lines for its fifteen
    calls, its one Trace call being filtered out. *)
Theorem sample_main_output
        (cs : list Attribute -> string -> string) (rt : nat -> Runtime) (w : World) :
  forallb (fun i => namesGoroutine (rt i))
          [0; 1; 2; 3; 4; 6; 7; 8; 9; 10; 11; 12; 13; 14]%nat = true ->
  exists lines,
    main cs rt w = (Return tt, mkWorld DebugLevel true true (stdout w ++ lines))
    /\ List.length lines = 14%nat.
Proof.
  intros H. cbn [forallb] in H.
  repeat match type of H with
         | (_ && _)%bool = true => apply Bool.andb_true_iff in H as [? H]
         end.
  clear H.
  assert (Hctx : forall w' i, showGoroutineID w' = true ->
                              namesGoroutine (rt i) = true ->
                              contextResolves w' (rt i) = true).
  { intros w' i Hg Hi. unfold contextResolves, namesGoroutine in *.
    rewrite Hi. apply Bool.orb_true_r. }
  eexists. split.
  - unfold main, performDatabaseOperation.
    unfold bind at 1, SetLogLevel, modify. unfold bind at 1, SetShowFileLine, modify.
    unfold bind at 1, SetShowGoroutineID, modify.
    cbn [currentLogLevel showFileLine showGoroutineID stdout].
    etransitivity;
      [apply (bind_call_emits cs (rt 0%nat) (CallInit "Starting application..." []));
       [reflexivity | apply Hctx; [reflexivity | assumption] | reflexivity]|].
    etransitivity;
      [apply (bind_call_emits cs (rt 1%nat)
                (CallConfig "Loading configuration from config.yaml" []));
       [reflexivity | apply Hctx; [reflexivity | assumption] | reflexivity]|].
    etransitivity;
      [apply (bind_call_emits cs (rt 2%nat)
                (CallInfo "Application initialized successfully" []));
       [reflexivity | apply Hctx; [reflexivity | assumption] | reflexivity]|].
    etransitivity;
      [apply (bind_call_emits cs (rt 3%nat)
                (CallSuccess "Server started on port %d" [AInt 8080]));
       [reflexivity | apply Hctx; [reflexivity | assumption] | reflexivity]|].
    etransitivity;
      [apply (bind_call_emits cs (rt 4%nat)
                (CallDebug "Connected to database with timeout: %v" [AString "30s"]));
       [reflexivity | apply Hctx; [reflexivity | assumption] | reflexivity]|].
    etransitivity;
      [apply (bind_call_skips cs (rt 5%nat)
                (CallTrace "Establishing connection pool with size: %d" [AInt 10]));
       reflexivity|].
    etransitivity;
      [apply (bind_call_emits cs (rt 6%nat)
                (CallMetric "active_connections" (AInt 42)
                            ["db=postgres"; "host=primary"]));
       [reflexivity | apply Hctx; [reflexivity | assumption] | reflexivity]|].
    etransitivity;
      [apply (bind_call_emits cs (rt 7%nat)
                (CallMetric "request_latency_ms" (AFloat64 "156.3")
                            ["endpoint=/api/users"]));
       [reflexivity | apply Hctx; [reflexivity | assumption] | reflexivity]|].
    etransitivity;
      [apply (bind_call_emits cs (rt 8%nat)
                (CallWarning "High memory usage detected: %d%%" [AInt 85]));
       [reflexivity | apply Hctx; [reflexivity | assumption] | reflexivity]|].
    etransitivity;
      [apply (bind_call_emits cs (rt 9%nat)
                (CallError "Database operation failed: %v"
                           [AString "connection timeout"]));
       [reflexivity | apply Hctx; [reflexivity | assumption] | reflexivity]|].
    etransitivity;
      [apply (bind_call_emits cs (rt 10%nat)
                (CallDebug "Processing new user registration..." []));
       [reflexivity | apply Hctx; [reflexivity | assumption] | reflexivity]|].
    etransitivity;
      [apply (bind_call_emits cs (rt 11%nat)
                (CallInfo "New user registered: %s" [AString "john.doe@example.com"]));
       [reflexivity | apply Hctx; [reflexivity | assumption] | reflexivity]|].
    etransitivity;
      [apply (bind_call_emits cs (rt 12%nat)
                (CallSuccess "Welcome email sent successfully" []));
       [reflexivity | apply Hctx; [reflexivity | assumption] | reflexivity]|].
    etransitivity;
      [apply (bind_call_emits cs (rt 13%nat)
                (CallMetric "user_registrations" (AInt 1) ["source=web"]));
       [reflexivity | apply Hctx; [reflexivity | assumption] | reflexivity]|].
    etransitivity;
      [apply (call_non_fatal_run cs (rt 14%nat)
                (CallMetric "email_delivery_time_ms" (AFloat64 "245.8") []));
       [reflexivity | apply Hctx; [reflexivity | assumption]]|].
    match goal with
    | |- (if ?p then _ else _) = _ => change p with true
    end.
    cbv iota. unfold wrote at 1.
    cbn [currentLogLevel showFileLine showGoroutineID stdout wrote].
    repeat rewrite <- List.app_assoc. cbn [app]. reflexivity.
  - reflexivity.
Qed.

Lemma sample_main_output_witness :
  forallb (fun i => namesGoroutine ((fun _ => sampleRuntime) i))
          [0; 1; 2; 3; 4; 6; 7; 8; 9; 10; 11; 12; 13; 14]%nat = true
  /\ exists lines,
       main plain_Sprint (fun _ => sampleRuntime) bareWorld
       = (Return tt, mkWorld DebugLevel true true (stdout bareWorld ++ lines))
       /\ List.length lines = 14%nat.
Proof.
  split; [reflexivity|].
  apply (sample_main_output plain_Sprint (fun _ => sampleRuntime) bareWorld).
  reflexivity.
Defined.
